(** * Student QR attendance system: a model of [app.py] and its properties

    The Flask handlers of [app.py] are embedded as computations in a state
    and exception monad over the two SQLite stores
    ([data/student_data.db], [data/attendance.db]), the [qr_codes/]
    directory and the module-level global [current_subject].  A handler
    either returns a JSON body (Flask answers HTTP 200) or lets a Python
    exception escape (Flask answers HTTP 500). *)

From Stdlib Require Import NArith Structures.OrderedTypeEx.
From stdpp Require Import base option list gmap strings sorting.

Local Open Scope string_scope.
Local Open Scope list_scope.

(** ** JSON bodies and Python exceptions *)

Local Unset Elimination Schemes.

Inductive json : Type :=
| JNull
| JBool (b : bool)
| JNum (n : N)
| JStr (s : string)
| JArr (items : list json)
| JObj (fields : list (string * json)).

Local Set Elimination Schemes.

(** The exceptions the handlers can meet.  [sqlite3.IntegrityError] is a
    subclass of [Exception]; [KeyError] is what [data['k']] raises on a JSON
    object without the key [k]; [OtherError] stands for any other
    [Exception], carrying its message. *)
Inductive exn : Type :=
| KeyError (key : string)
| IntegrityError (msg : string)
| OtherError (msg : string).

(** [str(e)]: a [KeyError] prints the [repr] of its key. *)
Definition str (e : exn) : string :=
  match e with
  | KeyError key => String.append "'" (String.append key "'")
  | IntegrityError msg => msg
  | OtherError msg => msg
  end.

Inductive result (A : Type) : Type :=
| Ok (a : A)
| Raise (e : exn).
Arguments Ok {A} a.
Arguments Raise {A} e.

(** What the HTTP client sees: [jsonify] answers 200, an exception that
    leaves the view function is turned into a 500 by Flask. *)
Definition http_status (r : result json) : N :=
  match r with
  | Ok _ => 200%N
  | Raise _ => 500%N
  end.

(** ** The stores *)

(** A row of [attendance]:
    [(log_id, roll_no, subject_id, datetime, status)]. *)
Record attendance_row : Type := AttendanceRow {
  log_id : N;
  att_roll_no : string;
  att_subject_id : string;
  datetime : string;
  status : string
}.

(** Tables are kept as lists of rows in insertion (rowid) order.
    [sqlite_sequence] is the counter SQLite keeps for the [AUTOINCREMENT]
    column of [attendance]; [current_subject] is the Python global. *)
Record state : Type := State {
  students : list (string * string);
  subjects : list (string * string);
  attendance : list attendance_row;
  sqlite_sequence : N;
  qr_codes : gmap string string;
  current_subject : string * string
}.

(** ** The monad of view functions *)

Definition M (A : Type) : Type := state → result A * state.

Global Instance M_ret : MRet M := λ A a s, (Ok a, s).

Global Instance M_bind : MBind M := λ A B k m s,
  match m s with
  | (Ok a, s') => k a s'
  | (Raise e, s') => (Raise e, s')
  end.

Definition raise {A : Type} (e : exn) : M A := λ s, (Raise e, s).

(** [try: body except ... as e: handler e]. *)
Definition try_except {A : Type} (body : M A) (handler : exn → M A) : M A :=
  λ s, match body s with
       | (Ok a, s') => (Ok a, s')
       | (Raise e, s') => handler e s'
       end.

(** [data[key]] on the object decoded by [request.get_json()].  The bodies
    considered are JSON objects whose values are strings, as the fields
    [roll_no], [name] and [subject_id] are; a body that is no object, or
    not JSON at all, is not represented. *)
Definition get_item (data : gmap string string) (key : string) : M string :=
  match data !! key with
  | Some v => mret v
  | None => raise (KeyError key)
  end.

(** ** SQL statements *)

(** [INSERT INTO students (roll_no, name) VALUES (?, ?)]: [roll_no] is the
    primary key. *)
Definition insert_student (roll_no name : string) : M unit := λ s,
  if bool_decide (roll_no ∈ (students s).*1)
  then (Raise (IntegrityError "UNIQUE constraint failed: students.roll_no"), s)
  else (Ok (),
        State (students s ++ [(roll_no, name)]) (subjects s) (attendance s)
              (sqlite_sequence s) (qr_codes s) (current_subject s)).

(** [INSERT OR IGNORE INTO subjects (subject_id, subject_name) VALUES (?, ?)]. *)
Definition insert_or_ignore_subject
    (tbl : list (string * string)) (row : string * string)
    : list (string * string) :=
  if bool_decide (row.1 ∈ tbl.*1) then tbl else tbl ++ [row].

(** [SELECT * FROM students WHERE roll_no = ?] followed by [fetchone()]. *)
Definition select_student (roll_no : string) : M (option (string * string)) :=
  λ s, (Ok (find (λ row, String.eqb row.1 roll_no) (students s)), s).

(** [SELECT subject_name FROM subjects WHERE subject_id = ?] followed by
    [fetchone()]. *)
Definition select_subject_name (subject_id : string) : M (option string) :=
  λ s, (Ok (snd <$> find (λ row, String.eqb row.1 subject_id) (subjects s)), s).

(** [ORDER BY subject_name] and [ORDER BY datetime DESC]: TEXT columns are
    compared bytewise. *)
Definition by_subject_name (a b : string * string) : Prop :=
  String.leb a.2 b.2 = true.

Definition by_datetime_desc (a b : attendance_row) : Prop :=
  String.leb (datetime b) (datetime a) = true.

Global Instance by_subject_name_dec a b : Decision (by_subject_name a b).
Proof. unfold by_subject_name. apply _. Defined.

Global Instance by_datetime_desc_dec a b : Decision (by_datetime_desc a b).
Proof. unfold by_datetime_desc. apply _. Defined.

(** With no index on the sort column SQLite reads the table in rowid order
    and sorts the rows on the key; rows with equal keys come out in the
    order they were read. *)
Fixpoint insert_by {A : Type} (R : relation A) `{!∀ x y, Decision (R x y)}
    (x : A) (l : list A) : list A :=
  match l with
  | [] => [x]
  | y :: l' => if decide (R x y) then x :: l else y :: insert_by R x l'
  end.

Definition order_by {A : Type} (R : relation A) `{!∀ x y, Decision (R x y)}
    (l : list A) : list A :=
  foldr (insert_by R) [] l.

Definition select_students : M (list (string * string)) :=
  λ s, (Ok (students s), s).

Definition select_subjects_ordered : M (list (string * string)) :=
  λ s, (Ok (order_by by_subject_name (subjects s)), s).

Definition select_attendance_ordered : M (list attendance_row) :=
  λ s, (Ok (order_by by_datetime_desc (attendance s)), s).

(** [DELETE FROM students] and [DELETE FROM attendance].  The
    [AUTOINCREMENT] counter survives the deletion. *)
Definition delete_students : M unit := λ s,
  (Ok (), State [] (subjects s) (attendance s)
                (sqlite_sequence s) (qr_codes s) (current_subject s)).

Definition delete_attendance : M unit := λ s,
  (Ok (), State (students s) (subjects s) []
                (sqlite_sequence s) (qr_codes s) (current_subject s)).

(** The rowid an [AUTOINCREMENT] column gives to a row inserted without one:
    one more than the largest rowid ever used.  The insert checks it
    against [max_rowid] before it is given out. *)
Definition max_log_id (rows : list attendance_row) : N :=
  foldr (λ r m, N.max (log_id r) m) 0%N rows.

Definition next_log_id (s : state) : N :=
  N.succ (N.max (sqlite_sequence s) (max_log_id (attendance s))).

(** A rowid is a signed 64-bit integer: the largest is 2^63 - 1. *)
Definition max_rowid : N := 9223372036854775807%N.

(** [INSERT OR REPLACE INTO attendance (roll_no, subject_id, status)
    VALUES (?, ?, ?)] executed at time [now].  [log_id] is assigned by
    [AUTOINCREMENT] and [datetime] by its default [CURRENT_TIMESTAMP].  Once
    the largest rowid has been used, [AUTOINCREMENT] has none left and the
    statement fails with [sqlite3.OperationalError], "database or disk is
    full".  The [CHECK] on [status] aborts the statement; the only
    uniqueness constraint [OR REPLACE] can resolve is the primary key
    [log_id]: rows that hold the new row's [log_id] are deleted before the
    new row goes in. *)
Definition insert_or_replace_attendance
    (now roll_no subject_id st : string) : M unit := λ s,
  if bool_decide (next_log_id s ≤ max_rowid)%N
  then
    if bool_decide (st ∈ ["Present"; "Absent"])
    then
      let id := next_log_id s in
      let kept := filter (λ r, log_id r ≠ id) (attendance s) in
      (Ok (),
       State (students s) (subjects s)
             (kept ++ [AttendanceRow id roll_no subject_id now st])
             id (qr_codes s) (current_subject s))
    else (Raise (IntegrityError "CHECK constraint failed: status"), s)
  else (Raise (OtherError "database or disk is full"), s).

(** Assignment to the global [current_subject]. *)
Definition set_current_subject (cur : string * string) : M unit := λ s,
  (Ok (), State (students s) (subjects s) (attendance s)
                (sqlite_sequence s) (qr_codes s) cur).

Definition get_current_subject : M (string * string) :=
  λ s, (Ok (current_subject s), s).

(** ** Start-up *)

Definition default_subjects : list (string * string) :=
  [("BCA-501", "DBMS");
   ("BCA-502", "JAVA");
   ("BCA-503", "CN");
   ("BCA-504", "DBMS-LAB");
   ("BCA-505", "JAVA-LAB")].

(** [init_db()]: the [CREATE TABLE IF NOT EXISTS] statements keep the rows
    the files already hold; the loop seeds the default subjects. *)
Definition init_db : M unit := λ s,
  (Ok (),
   State (students s)
         (foldl insert_or_ignore_subject (subjects s) default_subjects)
         (attendance s) (sqlite_sequence s) (qr_codes s) (current_subject s)).

(** Running the script on the files [disk] left by earlier runs: the global
    is bound to its literal, then [init_db()] runs. *)
Definition startup (disk : state) : state :=
  (init_db (State (students disk) (subjects disk) (attendance disk)
                  (sqlite_sequence disk) (qr_codes disk)
                  ("BCA-501", "DBMS"))).2.

Definition fresh_disk : state := State [] [] [] 0%N ∅ ("", "").

Definition initial_state : state := startup fresh_disk.

(** ** JSON payloads *)

Definition failure (msg : string) : json :=
  JObj [("success", JBool false); ("error", JStr msg)].

Definition student_json (row : string * string) : json :=
  JObj [("roll_no", JStr row.1); ("name", JStr row.2)].

Definition subject_json (row : string * string) : json :=
  JObj [("subject_id", JStr row.1); ("subject_name", JStr row.2)].

Definition attendance_json (row : attendance_row) : json :=
  JObj [("log_id", JNum (log_id row)); ("roll_no", JStr (att_roll_no row));
        ("subject_id", JStr (att_subject_id row));
        ("datetime", JStr (datetime row)); ("status", JStr (status row))].

Definition show_data_json
    (studs subjs : list (string * string)) (att : list attendance_row) : json :=
  JObj [("database1_student_data",
         JObj [("students", JArr (student_json <$> studs));
               ("subjects", JArr (subject_json <$> subjs))]);
        ("database2_attendance",
         JObj [("attendance", JArr (attendance_json <$> att))])].

(** ** The view functions *)

Section Handlers.

(** The [qrcode] library together with the write of the image file: the
    PNG bytes for a payload, or the message of the exception raised. *)
Variable qr_png : string → string + string.
(** [base64.b64encode(...).decode()]. *)
Variable b64encode : string → string.

Definition generate_qr_code (roll_no : string) : M string := λ s,
  match qr_png roll_no with
  | inl png =>
      let path := String.append "qr_codes/" (String.append roll_no ".png") in
      (Ok (b64encode png),
       State (students s) (subjects s) (attendance s) (sqlite_sequence s)
             (<[path := png]> (qr_codes s)) (current_subject s))
  | inr msg => (Raise (OtherError msg), s)
  end.

(** [POST /register].  The request is read before the [try]. *)
Definition register_student (request : gmap string string) : M json :=
  roll_no ← get_item request "roll_no";
  name ← get_item request "name";
  try_except
    (insert_student roll_no name;;
     qr_code ← generate_qr_code roll_no;
     mret (JObj [("success", JBool true); ("qr_code", JStr qr_code)]))
    (λ e, match e with
          | IntegrityError _ => mret (failure "Roll number already exists")
          | _ => mret (failure (str e))
          end).

(** [POST /clear-data]. *)
Definition clear_data : M json :=
  try_except
    (delete_students;;
     delete_attendance;;
     mret (JObj [("success", JBool true);
                 ("message", JStr "All data cleared successfully")]))
    (λ e, mret (failure (str e))).

(** [GET /data].  Its handler answers [{'error': ...}], without a
    [success] field. *)
Definition show_data : M json :=
  try_except
    (studs ← select_students;
     subjs ← select_subjects_ordered;
     att ← select_attendance_ordered;
     mret (show_data_json studs subjs att))
    (λ e, mret (JObj [("error", JStr (str e))])).

(** [GET /get-subjects]. *)
Definition get_subjects : M json :=
  try_except
    (subjs ← select_subjects_ordered;
     cur ← get_current_subject;
     mret (JObj [("success", JBool true);
                 ("subjects", JArr (subject_json <$> subjs));
                 ("current", subject_json cur)]))
    (λ e, mret (failure (str e))).

(** [POST /set-subject].  Here the request is read inside the [try]. *)
Definition set_subject (request : gmap string string) : M json :=
  try_except
    (subject_id ← get_item request "subject_id";
     result ← select_subject_name subject_id;
     match result with
     | Some subject_name =>
         set_current_subject (subject_id, subject_name);;
         cur ← get_current_subject;
         mret (JObj [("success", JBool true); ("current", subject_json cur)])
     | None => mret (failure "Subject not found")
     end)
    (λ e, mret (failure (str e))).

(** [POST /scan], served at time [now].  The request and the global are
    read before the [try]. *)
Definition scan_qr (request : gmap string string) (now : string) : M json :=
  roll_no ← get_item request "roll_no";
  cur ← get_current_subject;
  let subject_id := cur.1 in
  try_except
    (student ← select_student roll_no;
     match student with
     | Some row =>
         insert_or_replace_attendance now roll_no subject_id "Present";;
         mret (JObj [("success", JBool true);
                     ("student",
                      JObj [("roll_no", JStr row.1);
                            ("name", JStr row.2);
                            ("subject_id", JStr subject_id);
                            ("status", JStr "Present")])])
     | None => mret (failure "Student not found")
     end)
    (λ e, mret (failure (str e))).

(** ** Runs of the server *)

Inductive call : Type :=
| Register (request : gmap string string)
| ClearData
| ShowData
| GetSubjects
| SetSubject (request : gmap string string)
| Scan (request : gmap string string) (now : string).

Definition handle (c : call) : M json :=
  match c with
  | Register request => register_student request
  | ClearData => clear_data
  | ShowData => show_data
  | GetSubjects => get_subjects
  | SetSubject request => set_subject request
  | Scan request now => scan_qr request now
  end.

(** The states a server can be in: started on fresh files, after any
    request, and after a restart on the files it left. *)
Inductive reachable : state → Prop :=
| reachable_init : reachable initial_state
| reachable_call c s : reachable s → reachable (handle c s).2
| reachable_restart s : reachable s → reachable (startup s).

End Handlers.

(** ** A sample run

    A stand-in for the QR library, and the states of a server that
    registers one student, takes one scan of that student's code and is then
    switched to another subject. *)

Definition sample_png (payload : string) : string + string :=
  inl (String.append "PNG:" payload).

Definition sample_b64 (png : string) : string := String.append "b64:" png.

Definition asha : gmap string string :=
  {["roll_no" := "BCA001"; "name" := "Asha"]}.

Definition sample_registered : state :=
  (handle sample_png sample_b64 (Register asha) initial_state).2.

Definition sample_scanned : state :=
  (handle sample_png sample_b64
          (Scan {["roll_no" := "BCA001"]} "2024-01-01 09:00:00")
          sample_registered).2.

Definition sample_switched : state :=
  (handle sample_png sample_b64 (SetSubject {["subject_id" := "BCA-503"]})
          sample_scanned).2.

(** The state after a list of requests, served in order. *)
Definition serve (qr_png : string → string + string)
    (b64encode : string → string) (calls : list call) (s : state) : state :=
  foldl (λ s c, (handle qr_png b64encode c s).2) s calls.

(** An encoder that raises on every payload. *)
Definition failing_png (payload : string) : string + string :=
  inr "Invalid version (was 41, expected 1 to 40)".


(** The sample server after a second scan of the same code. *)
Definition sample_rescanned : state :=
  (handle sample_png sample_b64
          (Scan {["roll_no" := "BCA001"]} "2024-01-01 09:05:00")
          sample_scanned).2.

(** A ledger whose [AUTOINCREMENT] counter has reached the largest rowid. *)
Definition full_ledger : state :=
  State [("BCA001", "Asha")] default_subjects [] max_rowid ∅
        ("BCA-501", "DBMS").

(** Files of an earlier installation that named BCA-501 differently. *)
Definition renamed_disk : state :=
  State [] [("BCA-501", "Databases")] [] 0%N ∅ ("", "").

(** ** Ordering of TEXT columns *)

Lemma string_leb_trans (a b c : string) :
  String.leb a b = true → String.leb b c = true → String.leb a c = true.
Proof.
  unfold String.leb.
  destruct (String.compare a b) eqn:Hab; [| |discriminate]; intros _;
    destruct (String.compare b c) eqn:Hbc; [| |discriminate | | |discriminate];
    intros _.
  - apply String_as_OT.cmp_eq in Hab as ->. by rewrite Hbc.
  - apply String_as_OT.cmp_eq in Hab as ->. by rewrite Hbc.
  - apply String_as_OT.cmp_eq in Hbc as <-. by rewrite Hab.
  - apply String_as_OT.cmp_lt in Hab, Hbc.
    pose proof (String_as_OT.lt_trans _ _ _ Hab Hbc) as Hac.
    apply String_as_OT.cmp_lt in Hac. unfold String_as_OT.cmp in Hac.
    by rewrite Hac.
Qed.

Global Instance by_subject_name_total : Total by_subject_name.
Proof. intros a b. apply String.leb_total. Qed.

Global Instance by_subject_name_trans : Transitive by_subject_name.
Proof. intros a b c. apply string_leb_trans. Qed.

Global Instance by_datetime_desc_total : Total by_datetime_desc.
Proof. intros a b. apply String.leb_total. Qed.

Global Instance by_datetime_desc_trans : Transitive by_datetime_desc.
Proof. intros a b c Hab Hbc. exact (string_leb_trans _ _ _ Hbc Hab). Qed.

Section OrderBy.

Context {A : Type} (R : relation A) `{!∀ x y, Decision (R x y)}.

Lemma insert_by_Permutation (x : A) (l : list A) : insert_by R x l ≡ₚ x :: l.
Proof.
  induction l as [|y l IH]; simpl; [done|].
  destruct (decide (R x y)); [done|].
  rewrite IH. apply Permutation_swap.
Qed.

Lemma order_by_Permutation (l : list A) : order_by R l ≡ₚ l.
Proof.
  induction l as [|x l IH]; simpl; [done|].
  by rewrite insert_by_Permutation, IH.
Qed.

Lemma insert_by_StronglySorted `{!Total R, !Transitive R} (x : A) (l : list A) :
  StronglySorted R l → StronglySorted R (insert_by R x l).
Proof.
  induction 1 as [|y l Hl IH Hy]; simpl; [by repeat constructor|].
  destruct (decide (R x y)) as [Hxy|Hxy].
  - constructor; [by constructor|].
    constructor; [done|].
    eapply Forall_impl; [exact Hy|]. intros z Hyz. by etrans.
  - constructor; [done|].
    rewrite insert_by_Permutation. constructor; [|done].
    by destruct (total R x y).
Qed.

Lemma order_by_StronglySorted `{!Total R, !Transitive R} (l : list A) :
  StronglySorted R (order_by R l).
Proof.
  induction l as [|x l IH]; simpl; [constructor|].
  by apply insert_by_StronglySorted.
Qed.

End OrderBy.

(** C7. [GET /data] answers one snapshot holding every row of [students],
    every row of [subjects] in ascending order of [subject_name] and every
    row of [attendance] in descending order of [datetime], and leaves the
    state as it found it. *)
Theorem show_data_snapshot (s : state) :
  ∃ subjs att,
    show_data s
    = (Ok (JObj
             [("database1_student_data",
               JObj [("students",
                      JArr ((λ row, JObj [("roll_no", JStr row.1);
                                          ("name", JStr row.2)])
                              <$> students s));
                     ("subjects",
                      JArr ((λ row, JObj [("subject_id", JStr row.1);
                                          ("subject_name", JStr row.2)])
                              <$> subjs))]);
              ("database2_attendance",
               JObj [("attendance",
                      JArr ((λ row,
                               JObj [("log_id", JNum (log_id row));
                                     ("roll_no", JStr (att_roll_no row));
                                     ("subject_id", JStr (att_subject_id row));
                                     ("datetime", JStr (datetime row));
                                     ("status", JStr (status row))])
                              <$> att))])]),
       s)
    ∧ subjs ≡ₚ subjects s
    ∧ StronglySorted (λ a b, String.leb a.2 b.2 = true) subjs
    ∧ att ≡ₚ attendance s
    ∧ StronglySorted (λ a b, String.leb (datetime b) (datetime a) = true) att.
Proof.
  exists (order_by by_subject_name (subjects s)),
         (order_by by_datetime_desc (attendance s)).
  split; [reflexivity|].
  split; [apply order_by_Permutation|].
  split; [apply (order_by_StronglySorted by_subject_name)|].
  split; [apply order_by_Permutation|].
  apply (order_by_StronglySorted by_datetime_desc).
Qed.

(** ** How the statements act on the tables *)

Lemma filter_all {A} (P : A → Prop) `{!∀ x, Decision (P x)} (l : list A) :
  Forall P l → filter P l = l.
Proof.
  induction 1 as [|x l Hx _ IH]; [done|].
  by rewrite filter_cons_True, IH.
Qed.

Lemma filter_none {A} (P : A → Prop) `{!∀ x, Decision (P x)} (l : list A) :
  Forall (λ x, ¬ P x) l → filter P l = [].
Proof.
  induction 1 as [|x l Hx _ IH]; [done|].
  by rewrite filter_cons_False.
Qed.

Lemma present_passes_check : bool_decide ("Present" ∈ ["Present"; "Absent"]) = true.
Proof. reflexivity. Qed.

Lemma max_log_id_bound (rows : list attendance_row) (r : attendance_row) :
  r ∈ rows → (log_id r ≤ max_log_id rows)%N.
Proof.
  induction 1 as [r rows|r r' rows _ IH]; simpl; lia.
Qed.

(** A row inserted without a [log_id] never meets a primary-key conflict:
    [OR REPLACE] has nothing to replace. *)
Lemma autoincrement_no_conflict (s : state) :
  filter (λ r, log_id r ≠ next_log_id s) (attendance s) = attendance s.
Proof.
  apply filter_all, Forall_forall. intros r Hr.
  apply max_log_id_bound in Hr. unfold next_log_id. lia.
Qed.


Lemma find_key_Some (tbl : list (string * string)) (k : string) :
  k ∈ tbl.*1 → ∃ v, find (λ row, String.eqb row.1 k) tbl = Some (k, v) ∧ (k, v) ∈ tbl.
Proof.
  induction tbl as [|[k' v] tbl IH]; simpl.
  - by intros ?%elem_of_nil.
  - intros Hin. destruct (String.eqb_spec k' k) as [->|Hne].
    + exists v. split; [done | left].
    + apply elem_of_cons in Hin as [?|Hin]; [congruence|].
      destruct (IH Hin) as (w & ? & ?). exists w. split; [done | by right].
Qed.

Lemma find_key_elem (tbl : list (string * string)) (k : string) row :
  find (λ row, String.eqb row.1 k) tbl = Some row → row.1 = k ∧ row ∈ tbl.
Proof.
  induction tbl as [|[k' v] tbl IH]; simpl; [done|].
  destruct (String.eqb_spec k' k) as [->|Hne].
  - intros [= <-]. split; [done | left].
  - intros [? ?]%IH. split; [done | by right].
Qed.

Lemma find_key_NoDup (tbl : list (string * string)) (k v : string) :
  NoDup tbl.*1 → (k, v) ∈ tbl → find (λ row, String.eqb row.1 k) tbl = Some (k, v).
Proof.
  induction tbl as [|[k' v'] tbl IH]; simpl.
  - by intros _ ?%elem_of_nil.
  - rewrite NoDup_cons. intros [Hnin Hnd] Hin.
    destruct (String.eqb_spec k' k) as [->|Hne].
    + apply elem_of_cons in Hin as [[= ->]|Hin]; [done|].
      exfalso. apply Hnin. apply list_elem_of_fmap. by exists (k, v).
    + apply elem_of_cons in Hin as [[= ? ?]|Hin]; [congruence | auto].
Qed.

(** Under a primary key, the rows selected by one key value are one row. *)
Lemma filter_key_NoDup (tbl : list (string * string)) (k v : string) :
  NoDup tbl.*1 → (k, v) ∈ tbl → filter (λ row, row.1 = k) tbl = [(k, v)].
Proof.
  induction tbl as [|[k' v'] tbl IH]; simpl.
  - by intros _ ?%elem_of_nil.
  - rewrite NoDup_cons. intros [Hnin Hnd] Hin.
    destruct (decide (k' = k)) as [->|Hne].
    + rewrite filter_cons_True by done.
      assert (filter (λ row : string * string, row.1 = k) tbl = []) as ->.
      { apply filter_none, Forall_forall. intros [k2 v2] Hin2 Heq.
        simpl in Heq. subst k2. apply Hnin. apply list_elem_of_fmap. by exists (k, v2). }
      apply elem_of_cons in Hin as [[= ->]|Hin]; [done|].
      exfalso. apply Hnin. apply list_elem_of_fmap. by exists (k, v).
    + rewrite filter_cons_False by done.
      apply elem_of_cons in Hin as [[= ? ?]|Hin]; [congruence | auto].
Qed.

Lemma init_db_keeps_keys (tbl seed : list (string * string)) (k : string) :
  k ∈ tbl.*1 → k ∈ (foldl insert_or_ignore_subject tbl seed).*1.
Proof.
  revert tbl. induction seed as [|row seed IH]; intros tbl Hin; simpl; [done|].
  apply IH. unfold insert_or_ignore_subject. case_bool_decide; [done|].
  rewrite fmap_app. apply elem_of_app. by left.
Qed.

Lemma init_db_seeds (tbl seed : list (string * string)) (row : string * string) :
  row ∈ seed → row.1 ∈ (foldl insert_or_ignore_subject tbl seed).*1.
Proof.
  revert tbl. induction seed as [|row' seed IH]; intros tbl Hin; simpl.
  - by apply elem_of_nil in Hin.
  - apply elem_of_cons in Hin as [<-|Hin]; [|by apply IH].
    apply init_db_keeps_keys. unfold insert_or_ignore_subject.
    case_bool_decide; [done|].
    rewrite fmap_app. apply elem_of_app. right. simpl. left.
Qed.

(** ** How the view functions act on the state *)

Ltac run_M :=
  unfold handle, register_student, clear_data, show_data, get_subjects,
    set_subject, scan_qr, generate_qr_code, get_item, insert_student,
    select_student, select_subject_name, select_students,
    select_subjects_ordered, select_attendance_ordered, delete_students,
    delete_attendance, insert_or_replace_attendance, set_current_subject,
    get_current_subject, try_except, raise, mbind, M_bind, mret, M_ret in *;
  try rewrite !present_passes_check in *.

Section HandlerFacts.

Context (qr_png : string → string + string) (b64encode : string → string).

Lemma handle_subjects c s :
  subjects (handle qr_png b64encode c s).2 = subjects s.
Proof.
  destruct c; run_M; repeat case_match; simplify_eq/=; done.
Qed.

Lemma handle_students c s :
  let studs := students (handle qr_png b64encode c s).2 in
  studs = students s ∨ studs = []
  ∨ ∃ roll_no name,
      (roll_no ∉ (students s).*1) ∧ studs = students s ++ [(roll_no, name)].
Proof.
  destruct c; run_M; repeat case_match; simplify_eq/=; auto;
    right; right; eexists _, _; (split; [|done]);
    by match goal with H : bool_decide _ = false |- _ =>
         apply bool_decide_eq_false in H end.
Qed.

Lemma handle_attendance_written c s row :
  row ∈ attendance (handle qr_png b64encode c s).2 →
  row ∈ attendance s
  ∨ (status row = "Present" ∧ ∃ request now, c = Scan request now).
Proof.
  destruct c; run_M; repeat case_match; simplify_eq/=; auto.
  - by intros ?%elem_of_nil.
  - rewrite autoincrement_no_conflict.
    intros [?|Hrow%list_elem_of_singleton]%elem_of_app; [by left|].
    subst row. right. split; [done | by eexists _, _].
Qed.

Lemma handle_current_subject c s :
  let cur := current_subject (handle qr_png b64encode c s).2 in
  cur = current_subject s ∨ cur ∈ subjects s.
Proof.
  destruct c; run_M; repeat case_match; simplify_eq/=; auto.
  right.
  match goal with H : _ <$> find _ _ = Some _ |- _ =>
    apply fmap_Some in H as ([k v] & [Hk Hin]%find_key_elem & ->) end.
  simpl in *. by subst.
Qed.

Lemma startup_subjects_default s :
  subjects s = default_subjects → subjects (startup s) = default_subjects.
Proof. simpl. by intros ->. Qed.

(** Only [init_db] writes to [subjects]: a server started on fresh files
    holds the five seeded rows, whatever it has served since. *)
Lemma reachable_subjects s :
  reachable qr_png b64encode s → subjects s = default_subjects.
Proof.
  induction 1 as [|c s _ IH|s _ IH].
  - reflexivity.
  - by rewrite handle_subjects.
  - by apply startup_subjects_default.
Qed.

(** The primary key of [students]. *)
Lemma reachable_students_NoDup s :
  reachable qr_png b64encode s → NoDup (students s).*1.
Proof.
  induction 1 as [|c s _ IH|s _ IH].
  - constructor.
  - destruct (handle_students c s) as [->|[->|(r & n & Hnin & ->)]];
      [done | constructor |].
    rewrite fmap_app. apply NoDup_app. split; [done|]. split.
    + intros k Hk Hk'%list_elem_of_singleton. simpl in Hk'. by subst k.
    + apply NoDup_singleton.
  - done.
Qed.

End HandlerFacts.

Section Claims.

Context (qr_png : string → string + string) (b64encode : string → string).

(** The row goes in, and is committed, before the QR image is made. *)
Lemma register_student_new s request roll_no name :
  request !! "roll_no" = Some roll_no →
  request !! "name" = Some name →
  roll_no ∉ (students s).*1 →
  students (register_student qr_png b64encode request s).2 = students s ++ [(roll_no, name)]
  ∧ (register_student qr_png b64encode request s).1 =
      match qr_png roll_no with
      | inl png =>
          Ok (JObj [("success", JBool true); ("qr_code", JStr (b64encode png))])
      | inr msg => Ok (failure msg)
      end.
Proof.
  intros Hr Hn Hnew. run_M.
  rewrite Hr, Hn. simpl. rewrite bool_decide_eq_false_2 by done. simpl.
  by destruct (qr_png roll_no).
Qed.

Lemma register_student_frame s request :
  let s' := (register_student qr_png b64encode request s).2 in
  subjects s' = subjects s ∧ attendance s' = attendance s
  ∧ sqlite_sequence s' = sqlite_sequence s
  ∧ current_subject s' = current_subject s.
Proof. run_M. repeat case_match; simplify_eq/=; done. Qed.

Lemma scan_qr_known s request roll_no now :
  request !! "roll_no" = Some roll_no →
  roll_no ∈ (students s).*1 →
  (next_log_id s ≤ max_rowid)%N →
  (scan_qr request now s).2 =
    State (students s) (subjects s)
          (attendance s ++
             [AttendanceRow (next_log_id s) roll_no (current_subject s).1
                            now "Present"])
          (next_log_id s) (qr_codes s) (current_subject s).
Proof.
  intros Hr (name & Hfind & _)%find_key_Some Hfree. run_M.
  rewrite Hr. simpl. rewrite Hfind. simpl.
  rewrite bool_decide_eq_true_2 by done.
  by rewrite autoincrement_no_conflict.
Qed.

(** C1. Scanning a registered roll number twice under one active subject
    does not leave one row for the pair: the table has no uniqueness
    constraint on [(roll_no, subject_id)], every insert gets a fresh
    [log_id], and both rows stay. *)
Theorem scan_twice_keeps_both_rows :
  let s1 := (register_student qr_png b64encode {["roll_no" := "BCA001"; "name" := "Asha"]}
                              initial_state).2 in
  let s2 := (scan_qr {["roll_no" := "BCA001"]} "2024-01-01 09:00:00" s1).2 in
  let s3 := (scan_qr {["roll_no" := "BCA001"]} "2024-01-01 09:05:00" s2).2 in
  filter (λ r, att_roll_no r = "BCA001" ∧ att_subject_id r = "BCA-501")
         (attendance s3)
  = [AttendanceRow 1 "BCA001" "BCA-501" "2024-01-01 09:00:00" "Present";
     AttendanceRow 2 "BCA001" "BCA-501" "2024-01-01 09:05:00" "Present"].
Proof.
  intros s1 s2 s3.
  destruct (register_student_new initial_state
              {["roll_no" := "BCA001"; "name" := "Asha"]} "BCA001" "Asha")
    as [Hst _]; [reflexivity | reflexivity | apply not_elem_of_nil |].
  destruct (register_student_frame initial_state
              {["roll_no" := "BCA001"; "name" := "Asha"]})
    as (_ & Hat & Hseq & Hcur).
  fold s1 in Hst, Hat, Hseq, Hcur. simpl in Hst, Hat, Hseq, Hcur.
  clearbody s1.
  assert ("BCA001" ∈ (students s1).*1) as Hin1 by (rewrite Hst; left).
  assert (next_log_id s1 = 1%N) as Hid1
    by (unfold next_log_id; by rewrite Hat, Hseq).
  assert (s2 = State (students s1) (subjects s1)
                     [AttendanceRow 1 "BCA001" "BCA-501"
                                    "2024-01-01 09:00:00" "Present"]
                     1%N (qr_codes s1) (current_subject s1)) as Hs2.
  { subst s2. rewrite (scan_qr_known _ _ "BCA001"); [|done|done|].
    - by rewrite Hid1, Hat, Hcur.
    - rewrite Hid1. unfold max_rowid. lia. }
  clearbody s2. subst s2. subst s3.
  rewrite (scan_qr_known _ _ "BCA001"); [|done|done|].
  - unfold next_log_id. simpl. rewrite Hcur. reflexivity.
  - unfold next_log_id, max_rowid. simpl. lia.
Qed.

(** C2. Not every failure is turned into a structured body: [/register]
    and [/scan] read the request before their [try], so a body without
    [roll_no] makes the [KeyError] leave the view function and Flask
    answers 500. *)
Theorem missing_roll_no_escapes s now :
  register_student qr_png b64encode ∅ s = (Raise (KeyError "roll_no"), s)
  ∧ scan_qr ∅ now s = (Raise (KeyError "roll_no"), s)
  ∧ http_status (register_student qr_png b64encode ∅ s).1 = 500%N
  ∧ http_status (scan_qr ∅ now s).1 = 500%N.
Proof. repeat split. Qed.

(** [/set-subject] reads the request inside its [try]: there the same
    mistake is answered with a structured failure. *)
Lemma set_subject_missing_key s :
  set_subject ∅ s = (Ok (failure "'subject_id'"), s).
Proof. reflexivity. Qed.

(** C3. Registering a roll number the directory already holds answers
    [success: false] with the duplicate message and changes nothing: the
    directory keeps its one row for that roll number, under the name it
    had. *)
Theorem register_duplicate s request roll_no name :
  reachable qr_png b64encode s →
  request !! "roll_no" = Some roll_no →
  request !! "name" = Some name →
  roll_no ∈ (students s).*1 →
  ∃ name0,
    (roll_no, name0) ∈ students s
    ∧ register_student qr_png b64encode request s
      = (Ok (failure "Roll number already exists"), s)
    ∧ filter (λ row, row.1 = roll_no)
             (students (register_student qr_png b64encode request s).2)
      = [(roll_no, name0)].
Proof.
  intros Hreach Hr Hn Hin.
  assert (register_student qr_png b64encode request s
          = (Ok (failure "Roll number already exists"), s)) as Hrun.
  { run_M. rewrite Hr, Hn. simpl. by rewrite bool_decide_eq_true_2. }
  destruct (find_key_Some _ _ Hin) as (name0 & _ & Hrow).
  exists name0. split; [done|]. split; [done|].
  rewrite Hrun. simpl.
  apply filter_key_NoDup; [|done].
  by eapply reachable_students_NoDup.
Qed.




(** C8. On a server started on fresh files every row of [attendance] has
    status 'Present', whatever requests were served and however often it
    was restarted: a request adds a row only if it is a [/scan], and the row
    it adds carries that literal. *)
Theorem attendance_always_present s :
  reachable qr_png b64encode s →
  Forall (λ row, status row = "Present") (attendance s)
  ∧ ∀ c row,
      row ∈ attendance (handle qr_png b64encode c s).2 →
      row ∈ attendance s
      ∨ (status row = "Present" ∧ ∃ request now, c = Scan request now).
Proof.
  intros Hreach. split; [|intros c row; apply handle_attendance_written].
  induction Hreach as [|c s _ IH|s _ IH].
  - constructor.
  - apply Forall_forall. intros row Hrow.
    apply handle_attendance_written in Hrow as [Hold|[Hnew _]]; [|done].
    by eapply Forall_forall in IH.
  - done.
Qed.


(** C10. On a server started on fresh files [current_subject] always holds
    the [subject_id] of a row of [subjects]: the literal it starts from is
    seeded by [init_db], [/set-subject] rebinds it to a row it has found,
    and no request, [/clear-data] included, writes to [subjects]. *)
Theorem current_subject_in_subjects s :
  reachable qr_png b64encode s →
  (current_subject s).1 ∈ (subjects s).*1
  ∧ ∀ c, subjects (handle qr_png b64encode c s).2 = subjects s.
Proof.
  intros Hreach. split; [|intros c; apply handle_subjects].
  induction Hreach as [|c s _ IH|s _ IH].
  - simpl. left.
  - rewrite handle_subjects.
    destruct (handle_current_subject qr_png b64encode c s) as [->|Hin]; [done|].
    apply list_elem_of_fmap. by eexists.
  - apply (init_db_seeds (subjects s) default_subjects ("BCA-501", "DBMS")).
    left.
Qed.

End Claims.

(** ** The theorems on the sample run *)

Ltac by_computation := apply (bool_decide_unpack _); vm_compute; exact I.

Lemma sample_registered_reachable :
  reachable sample_png sample_b64 sample_registered.
Proof. apply reachable_call, reachable_init. Qed.

Lemma sample_scanned_reachable :
  reachable sample_png sample_b64 sample_scanned.
Proof. apply reachable_call, sample_registered_reachable. Qed.

Lemma sample_switched_reachable :
  reachable sample_png sample_b64 sample_switched.
Proof. apply reachable_call, sample_scanned_reachable. Qed.

Lemma register_duplicate_witness :
  ∃ name0,
    ("BCA001", name0) ∈ students sample_registered
    ∧ register_student sample_png sample_b64
        {["roll_no" := "BCA001"; "name" := "Usha"]} sample_registered
      = (Ok (failure "Roll number already exists"), sample_registered)
    ∧ filter (λ row, row.1 = "BCA001")
             (students (register_student sample_png sample_b64
                          {["roll_no" := "BCA001"; "name" := "Usha"]}
                          sample_registered).2)
      = [("BCA001", name0)].
Proof.
  apply (register_duplicate sample_png sample_b64 sample_registered
           {["roll_no" := "BCA001"; "name" := "Usha"]} "BCA001" "Usha").
  - apply sample_registered_reachable.
  - reflexivity.
  - reflexivity.
  - by_computation.
Defined.




Lemma attendance_always_present_witness :
  reachable sample_png sample_b64 sample_scanned
  ∧ Forall (λ row, status row = "Present") (attendance sample_scanned).
Proof.
  split; [apply sample_scanned_reachable|].
  apply (attendance_always_present sample_png sample_b64 sample_scanned).
  apply sample_scanned_reachable.
Defined.



Lemma current_subject_in_subjects_witness :
  reachable sample_png sample_b64 sample_switched
  ∧ (current_subject sample_switched).1 ∈ (subjects sample_switched).*1.
Proof.
  split; [apply sample_switched_reachable|].
  destruct (current_subject_in_subjects sample_png sample_b64 sample_switched)
    as [Hcur _]; [apply sample_switched_reachable | exact Hcur].
Defined.

(** ** Start-up on files left by earlier runs *)

Lemma insert_or_ignore_prefix (tbl : list (string * string)) row :
  tbl `prefix_of` insert_or_ignore_subject tbl row.
Proof.
  unfold insert_or_ignore_subject. case_bool_decide; [done|].
  by apply prefix_app_r.
Qed.

Lemma insert_or_ignore_NoDup (tbl : list (string * string)) row :
  NoDup tbl.*1 → NoDup (insert_or_ignore_subject tbl row).*1.
Proof.
  intros Hnd. unfold insert_or_ignore_subject. case_bool_decide; [done|].
  rewrite fmap_app. apply NoDup_app. split; [done|]. split.
  - intros k Hk Hk'%list_elem_of_singleton. simpl in Hk'. by subst k.
  - apply NoDup_singleton.
Qed.

Lemma insert_or_ignore_origin (tbl : list (string * string)) row r :
  r ∈ insert_or_ignore_subject tbl row → r ∈ tbl ∨ r = row.
Proof.
  unfold insert_or_ignore_subject. case_bool_decide; [by left|].
  intros [?|?%list_elem_of_singleton]%elem_of_app; auto.
Qed.

Lemma seed_loop_prefix (tbl seed : list (string * string)) :
  tbl `prefix_of` foldl insert_or_ignore_subject tbl seed.
Proof.
  revert tbl. induction seed as [|row seed IH]; intros tbl; simpl; [done|].
  etrans; [apply insert_or_ignore_prefix | apply IH].
Qed.

Lemma seed_loop_NoDup (tbl seed : list (string * string)) :
  NoDup tbl.*1 → NoDup (foldl insert_or_ignore_subject tbl seed).*1.
Proof.
  revert tbl. induction seed as [|row seed IH]; intros tbl Hnd; simpl; [done|].
  by apply IH, insert_or_ignore_NoDup.
Qed.

Lemma seed_loop_origin (tbl seed : list (string * string)) r :
  r ∈ foldl insert_or_ignore_subject tbl seed → r ∈ tbl ∨ r ∈ seed.
Proof.
  revert tbl. induction seed as [|row seed IH]; intros tbl; simpl; [by left|].
  intros [[?| ->]%insert_or_ignore_origin|?]%IH.
  - by left.
  - right. left.
  - right. by right.
Qed.

Lemma seed_loop_noop (tbl seed : list (string * string)) :
  (∀ row, row ∈ seed → row.1 ∈ tbl.*1) →
  foldl insert_or_ignore_subject tbl seed = tbl.
Proof.
  induction seed as [|row seed IH]; intros Hall; simpl; [done|].
  unfold insert_or_ignore_subject at 2.
  rewrite bool_decide_eq_true_2 by (apply Hall; left).
  apply IH. intros r Hr. apply Hall. by right.
Qed.

(** X1. Starting the script again on the files of a started server changes
    nothing: the seeding loop finds every default subject in place. *)
Theorem startup_idempotent (s : state) : startup (startup s) = startup s.
Proof.
  unfold startup, init_db.
  cbn [snd students subjects attendance sqlite_sequence qr_codes
       current_subject].
  f_equal. apply seed_loop_noop. intros row Hrow. by apply init_db_seeds.
Qed.

(** X2. [init_db] on a subjects table that already has rows keeps them, in
    place and unchanged, adds nothing but default subjects, leaves every
    default [subject_id] present, and keeps [subject_id] a key. *)
Theorem init_db_keeps_existing (s : state) :
  subjects s `prefix_of` subjects (init_db s).2
  ∧ (∀ row, row ∈ subjects (init_db s).2 →
            row ∈ subjects s ∨ row ∈ default_subjects)
  ∧ (∀ row, row ∈ default_subjects → row.1 ∈ (subjects (init_db s).2).*1)
  ∧ (NoDup (subjects s).*1 → NoDup (subjects (init_db s).2).*1).
Proof.
  unfold init_db. cbn [snd subjects]. split; [apply seed_loop_prefix|].
  split; [intros row; apply seed_loop_origin|].
  split; [intros row; apply init_db_seeds | apply seed_loop_NoDup].
Qed.

(** What a scan of a roll number found in [students] does. *)
Lemma scan_qr_found s request roll_no name now :
  request !! "roll_no" = Some roll_no →
  find (λ row, String.eqb row.1 roll_no) (students s) = Some (roll_no, name) →
  scan_qr request now s
  = if bool_decide (next_log_id s ≤ max_rowid)%N
    then (Ok (JObj [("success", JBool true);
                    ("student",
                     JObj [("roll_no", JStr roll_no);
                           ("name", JStr name);
                           ("subject_id", JStr (current_subject s).1);
                           ("status", JStr "Present")])]),
          State (students s) (subjects s)
                (attendance s ++
                   [AttendanceRow (next_log_id s) roll_no
                                  (current_subject s).1 now "Present"])
                (next_log_id s) (qr_codes s) (current_subject s))
    else (Ok (failure "database or disk is full"), s).
Proof.
  intros Hr Hfind. run_M. rewrite Hr.
  cbn [fst snd]. rewrite Hfind. cbn [fst snd].
  destruct (bool_decide (next_log_id s ≤ max_rowid)%N); [|done].
  cbn [fst snd attendance]. by rewrite autoincrement_no_conflict.
Qed.

Section RegisterScan.

Context (qr_png : string → string + string) (b64encode : string → string).

Lemma find_key_snoc (tbl : list (string * string)) (k v : string) :
  k ∉ tbl.*1 → find (λ row, String.eqb row.1 k) (tbl ++ [(k, v)]) = Some (k, v).
Proof.
  induction tbl as [|[k' v'] tbl IH]; simpl.
  - intros _. by rewrite String.eqb_refl.
  - rewrite not_elem_of_cons. intros [Hne Hnin].
    destruct (String.eqb_spec k' k); [congruence | auto].
Qed.

(** X3. A registration that succeeds writes the image to
    [qr_codes/<roll_no>.png] and answers with the base64 text of that same
    image. *)
Theorem register_writes_image s request roll_no name png :
  request !! "roll_no" = Some roll_no →
  request !! "name" = Some name →
  roll_no ∉ (students s).*1 →
  qr_png roll_no = inl png →
  (register_student qr_png b64encode request s).1
  = Ok (JObj [("success", JBool true); ("qr_code", JStr (b64encode png))])
  ∧ qr_codes (register_student qr_png b64encode request s).2
    = <[String.append "qr_codes/" (String.append roll_no ".png") := png]>
        (qr_codes s).
Proof.
  intros Hr Hn Hnew Hpng. run_M.
  rewrite Hr, Hn. simpl. rewrite bool_decide_eq_false_2 by done. simpl.
  by rewrite Hpng.
Qed.

(** X4. When making the QR image fails, the student row is already
    committed: the answer is [success: false] with the exception's message,
    no image file is written, the row stays, and sending the same request
    again is answered "Roll number already exists". *)
Theorem register_image_failure_keeps_row s request roll_no name msg :
  request !! "roll_no" = Some roll_no →
  request !! "name" = Some name →
  roll_no ∉ (students s).*1 →
  qr_png roll_no = inr msg →
  let s' := (register_student qr_png b64encode request s).2 in
  (register_student qr_png b64encode request s).1 = Ok (failure msg)
  ∧ students s' = students s ++ [(roll_no, name)]
  ∧ qr_codes s' = qr_codes s
  ∧ register_student qr_png b64encode request s'
    = (Ok (failure "Roll number already exists"), s').
Proof.
  intros Hr Hn Hnew Hpng s'.
  assert (register_student qr_png b64encode request s
          = (Ok (failure msg),
             State (students s ++ [(roll_no, name)]) (subjects s)
                   (attendance s) (sqlite_sequence s) (qr_codes s)
                   (current_subject s))) as Hrun.
  { run_M. rewrite Hr, Hn. simpl. rewrite bool_decide_eq_false_2 by done.
    simpl. by rewrite Hpng. }
  subst s'. rewrite Hrun. simpl. repeat (split; [done|]).
  run_M. rewrite Hr, Hn. simpl. rewrite bool_decide_eq_true_2; [done|].
  rewrite fmap_app. apply elem_of_app. right. left.
Qed.

(** X5. A student that has just been registered can be scanned: while a
    [log_id] is left to give out, the scan answers with the registered roll
    number and name, the active subject and 'Present', whether or not the
    QR image could be made. *)
Theorem register_then_scan s request scanned roll_no name now :
  request !! "roll_no" = Some roll_no →
  request !! "name" = Some name →
  scanned !! "roll_no" = Some roll_no →
  roll_no ∉ (students s).*1 →
  (next_log_id s ≤ max_rowid)%N →
  (scan_qr scanned now (register_student qr_png b64encode request s).2).1
  = Ok (JObj [("success", JBool true);
              ("student",
               JObj [("roll_no", JStr roll_no);
                     ("name", JStr name);
                     ("subject_id", JStr (current_subject s).1);
                     ("status", JStr "Present")])]).
Proof.
  intros Hr Hn Hsc Hnew Hfree.
  destruct (register_student_new qr_png b64encode s request roll_no name
              Hr Hn Hnew) as [Hst _].
  destruct (register_student_frame qr_png b64encode s request)
    as (_ & Hat & Hseq & Hcur).
  set (s' := (register_student qr_png b64encode request s).2) in *.
  clearbody s'. simpl in Hat, Hseq, Hcur.
  assert (next_log_id s' = next_log_id s) as Hid
    by (unfold next_log_id; by rewrite Hat, Hseq).
  rewrite (scan_qr_found s' scanned roll_no name now Hsc).
  - rewrite Hid, bool_decide_eq_true_2 by done. simpl. by rewrite Hcur.
  - rewrite Hst. by apply find_key_snoc.
Qed.

End RegisterScan.

Section Ledger.

Context (qr_png : string → string + string) (b64encode : string → string).

(** What one request does to the tables. *)
Lemma handle_effect c s :
  let s' := (handle qr_png b64encode c s).2 in
  (students s' = students s ∧ attendance s' = attendance s
   ∧ sqlite_sequence s' = sqlite_sequence s)
  ∨ (∃ r n, (r ∉ (students s).*1) ∧ students s' = students s ++ [(r, n)]
            ∧ attendance s' = attendance s
            ∧ sqlite_sequence s' = sqlite_sequence s)
  ∨ (students s' = [] ∧ attendance s' = []
     ∧ sqlite_sequence s' = sqlite_sequence s)
  ∨ (∃ r now, (r ∈ (students s).*1) ∧ students s' = students s
              ∧ attendance s'
                = attendance s ++
                    [AttendanceRow (next_log_id s) r (current_subject s).1
                                   now "Present"]
              ∧ sqlite_sequence s' = next_log_id s).
Proof.
  destruct c; run_M; repeat case_match; simplify_eq/=; auto.
  - right. left. eexists _, _. split; [|done].
    by match goal with H : bool_decide _ = false |- _ =>
         apply bool_decide_eq_false in H end.
  - right. left. eexists _, _. split; [|done].
    by match goal with H : bool_decide _ = false |- _ =>
         apply bool_decide_eq_false in H end.
  - do 2 right. by left.
  - do 3 right. rewrite autoincrement_no_conflict. eexists _, _.
    split; [|done].
    match goal with H : find _ _ = Some ?row |- _ =>
      apply find_key_elem in H as [<- Hin] end.
    apply list_elem_of_fmap. by eexists.
Qed.

Lemma reachable_current_subject s :
  reachable qr_png b64encode s → (current_subject s).1 ∈ (subjects s).*1.
Proof.
  induction 1 as [|c s _ IH|s _ IH].
  - simpl. left.
  - rewrite handle_subjects.
    destruct (handle_current_subject qr_png b64encode c s) as [->|Hin]; [done|].
    apply list_elem_of_fmap. by eexists.
  - apply (init_db_seeds (subjects s) default_subjects ("BCA-501", "DBMS")).
    left.
Qed.

Lemma reachable_log_ids s :
  reachable qr_png b64encode s →
  Forall (λ r, (log_id r ≤ sqlite_sequence s)%N) (attendance s)
  ∧ StronglySorted N.lt (log_id <$> attendance s).
Proof.
  induction 1 as [|c s _ [IHb IHs]|s _ IH].
  - split; constructor.
  - destruct (handle_effect c s)
      as [(_ & -> & ->)|[(r & n & _ & _ & -> & ->)
         |[(_ & -> & _)|(r & now & _ & _ & -> & ->)]]];
      [done | done | split; constructor |].
    assert (sqlite_sequence s < next_log_id s)%N as Hlt
      by (unfold next_log_id; lia).
    split.
    + apply Forall_app. split.
      * eapply Forall_impl; [exact IHb|]. simpl. intros; lia.
      * by repeat constructor.
    + rewrite fmap_app. apply StronglySorted_app_2; [|done|repeat constructor].
      intros i j Hi Hj%list_elem_of_singleton. simpl in Hj. subst j.
      apply list_elem_of_fmap in Hi as (row & -> & Hrow).
      eapply Forall_forall in IHb; [|exact Hrow]. simpl in IHb. lia.
  - done.
Qed.

(** X6. A scan of a registered roll number, while a [log_id] is left to
    give out, appends one row, with the next [log_id], the active subject,
    the time of the scan and 'Present', and touches nothing else: no
    earlier row is removed or rewritten, whatever rows the pair already
    has.  Once the largest rowid has been used the scan is answered
    "database or disk is full" and writes nothing. *)
Theorem scan_appends_one_row s request roll_no name now :
  request !! "roll_no" = Some roll_no →
  NoDup (students s).*1 →
  (roll_no, name) ∈ students s →
  ((next_log_id s ≤ max_rowid)%N →
   scan_qr request now s
   = (Ok (JObj [("success", JBool true);
                ("student",
                 JObj [("roll_no", JStr roll_no);
                       ("name", JStr name);
                       ("subject_id", JStr (current_subject s).1);
                       ("status", JStr "Present")])]),
      State (students s) (subjects s)
            (attendance s ++
               [AttendanceRow (next_log_id s) roll_no (current_subject s).1
                              now "Present"])
            (next_log_id s) (qr_codes s) (current_subject s)))
  ∧ ((max_rowid < next_log_id s)%N →
     scan_qr request now s = (Ok (failure "database or disk is full"), s)).
Proof.
  intros Hr Hnd Hin.
  pose proof (find_key_NoDup _ _ _ Hnd Hin) as Hfind.
  rewrite (scan_qr_found s request roll_no name now Hr Hfind).
  split; intros Hid.
  - by rewrite bool_decide_eq_true_2.
  - rewrite bool_decide_eq_false_2; [done | lia].
Qed.

(** X7. On a running server the [log_id]s of the attendance table are
    pairwise different, increase in insertion order, and none exceeds the
    [AUTOINCREMENT] counter. *)
Theorem log_ids_increasing s :
  reachable qr_png b64encode s →
  NoDup (log_id <$> attendance s)
  ∧ StronglySorted N.lt (log_id <$> attendance s)
  ∧ Forall (λ r, (log_id r ≤ sqlite_sequence s)%N) (attendance s).
Proof.
  intros [Hb Hs]%reachable_log_ids. split; [|done].
  clear Hb. induction Hs as [|i l _ IH Hall]; constructor; [|done].
  intros Hin. eapply Forall_forall in Hall; [|exact Hin]. lia.
Qed.

(** X8. A [log_id] is never given out twice: whatever requests the server
    goes on to serve, [/clear-data] among them, every attendance row it then
    holds is either a row it held before or has a [log_id] above the
    [AUTOINCREMENT] counter it started from. *)
Theorem log_id_never_reused s calls row :
  row ∈ attendance (serve qr_png b64encode calls s) →
  row ∈ attendance s ∨ (sqlite_sequence s < log_id row)%N.
Proof.
  revert row.
  assert (∀ calls s0,
    (sqlite_sequence s ≤ sqlite_sequence s0)%N →
    (∀ row, row ∈ attendance s0 →
       row ∈ attendance s ∨ (sqlite_sequence s < log_id row)%N) →
    ∀ row, row ∈ attendance (serve qr_png b64encode calls s0) →
       row ∈ attendance s ∨ (sqlite_sequence s < log_id row)%N) as Hgen.
  { clear calls. induction calls as [|c calls IH]; intros s0 Hle Hrows;
      [exact Hrows|].
    simpl.
    destruct (handle_effect c s0)
      as [(_ & Ha & Hq)|[(r & n & _ & _ & Ha & Hq)
         |[(_ & Ha & Hq)|(r & now & _ & _ & Ha & Hq)]]];
      apply IH; rewrite ?Ha, ?Hq; try done.
    - by intros row ?%elem_of_nil.
    - unfold next_log_id. lia.
    - intros row [?|Hrow%list_elem_of_singleton]%elem_of_app; [auto|].
      subst row. right. simpl. unfold next_log_id. lia. }
  apply Hgen; [lia | auto].
Qed.

(** X9. On a running server every attendance row names a student of the
    directory and a subject of the subjects table, though no foreign key
    asks for it: rows are written only for a student just looked up, under
    the active subject, and students are deleted only together with the
    attendance rows. *)
Theorem attendance_refers_to_rows s row :
  reachable qr_png b64encode s →
  row ∈ attendance s →
  att_roll_no row ∈ (students s).*1 ∧ att_subject_id row ∈ (subjects s).*1.
Proof.
  intros Hs. revert row.
  induction Hs as [|c s Hs IH|s _ IH]; intros row.
  - by intros ?%elem_of_nil.
  - rewrite handle_subjects.
    destruct (handle_effect c s)
      as [(-> & -> & _)|[(r & n & _ & -> & -> & _)
         |[(_ & -> & _)|(r & now & Hr & -> & -> & _)]]].
    + apply IH.
    + intros [? ?]%IH. split; [|done].
      rewrite fmap_app. apply elem_of_app. by left.
    + by intros ?%elem_of_nil.
    + intros [?|Hrow%list_elem_of_singleton]%elem_of_app; [by apply IH|].
      subst row. simpl. split; [done|]. by apply reachable_current_subject.
  - intros [? ?]%IH. split; [done|].
    by apply init_db_keeps_keys.
Qed.

End Ledger.

Section Requests.

Context (qr_png : string → string + string) (b64encode : string → string).

(** X10. Among the requests whose body is a JSON object with string
    values, served with the database files at hand, the only exceptions
    that leave a view function are the [KeyError]s of a body without
    [roll_no] or [name] sent to [/register] and of a body without [roll_no]
    sent to [/scan]; the state is then as it was.  (Bodies that are not
    such objects are outside [call].) *)
Theorem only_missing_fields_escape c s e :
  (handle qr_png b64encode c s).1 = Raise e →
  (handle qr_png b64encode c s).2 = s
  ∧ ((∃ request, c = Register request
        ∧ ((request !! "roll_no" = None ∧ e = KeyError "roll_no")
           ∨ (request !! "name" = None ∧ e = KeyError "name")))
     ∨ (∃ request now, c = Scan request now
          ∧ request !! "roll_no" = None ∧ e = KeyError "roll_no")).
Proof.
  destruct c; run_M; repeat case_match; simplify_eq/=; intros [= <-];
    (split; [done|]); [left | left | right]; eauto 10.
Qed.

(** X11. [/set-subject] without a [subject_id] answers the structured
    failure whose message is the quoted key, and changes nothing. *)
Theorem set_subject_without_subject_id s request :
  request !! "subject_id" = None →
  set_subject request s = (Ok (failure "'subject_id'"), s).
Proof. intros Hid. run_M. by rewrite Hid. Qed.

(** X12. [/get-subjects] answers every row of [subjects] in ascending order
    of [subject_name] together with the active subject, and changes
    nothing. *)
Theorem get_subjects_snapshot (s : state) :
  ∃ subjs,
    get_subjects s
    = (Ok (JObj [("success", JBool true);
                 ("subjects", JArr (subject_json <$> subjs));
                 ("current", subject_json (current_subject s))]), s)
    ∧ subjs ≡ₚ subjects s
    ∧ StronglySorted (λ a b, String.leb a.2 b.2 = true) subjs.
Proof.
  exists (order_by by_subject_name (subjects s)).
  split; [reflexivity|].
  split; [apply order_by_Permutation|].
  apply (order_by_StronglySorted by_subject_name).
Qed.

(** X13. After [/set-subject] has selected a subject, a scan is recorded
    under that subject, as long as a [log_id] is left to give out. *)
Theorem set_subject_then_scan s selection scanned subject_id subject_name
    roll_no now :
  selection !! "subject_id" = Some subject_id →
  scanned !! "roll_no" = Some roll_no →
  NoDup (subjects s).*1 →
  (subject_id, subject_name) ∈ subjects s →
  roll_no ∈ (students s).*1 →
  (next_log_id s ≤ max_rowid)%N →
  attendance (scan_qr scanned now (set_subject selection s).2).2
  = attendance s ++
      [AttendanceRow (next_log_id s) roll_no subject_id now "Present"].
Proof.
  intros Hid Hr Hnd1 Hin1 Hin2 Hfree.
  pose proof (find_key_NoDup _ _ _ Hnd1 Hin1) as Hsubj.
  assert ((set_subject selection s).2
          = State (students s) (subjects s) (attendance s)
                  (sqlite_sequence s) (qr_codes s)
                  (subject_id, subject_name)) as ->.
  { run_M. rewrite Hid. simpl. by rewrite Hsubj. }
  by rewrite (scan_qr_known _ scanned roll_no now Hr).
Qed.


(** X15. No request removes a QR image: a file of [qr_codes/] that exists
    before a request exists after it, [/clear-data] included. *)
Theorem qr_images_kept c s path :
  is_Some (qr_codes s !! path) →
  is_Some (qr_codes (handle qr_png b64encode c s).2 !! path).
Proof.
  intros Hfile.
  destruct c; run_M; repeat case_match; simplify_eq/=; try done.
  all: rewrite lookup_insert; destruct (decide _); [by eexists | done].
Qed.

(** X16. A student row, once in the directory, stays where it is and as it
    is under every request but [/clear-data]. *)
Theorem students_kept_until_cleared c s :
  c ≠ ClearData →
  students s `prefix_of` students (handle qr_png b64encode c s).2.
Proof.
  intros Hc.
  destruct c; run_M; repeat case_match; simplify_eq/=;
    try done; by apply prefix_app_r.
Qed.

(** X17. On a running server [roll_no] is a key of [students] and
    [subject_id] a key of [subjects]. *)
Theorem primary_keys_hold s :
  reachable qr_png b64encode s →
  NoDup (students s).*1 ∧ NoDup (subjects s).*1.
Proof.
  intros Hs. split; [by eapply reachable_students_NoDup|].
  rewrite (reachable_subjects _ _ _ Hs). by_computation.
Qed.

(** X18. The subject selected by [/set-subject] is the one [/get-subjects]
    then reports as current, next to the subjects in ascending order of
    [subject_name]. *)
Theorem set_subject_then_get_subjects s request subject_id subject_name :
  request !! "subject_id" = Some subject_id →
  NoDup (subjects s).*1 →
  (subject_id, subject_name) ∈ subjects s →
  ∃ subjs,
    (get_subjects (set_subject request s).2).1
    = Ok (JObj [("success", JBool true);
                ("subjects", JArr (subject_json <$> subjs));
                ("current", subject_json (subject_id, subject_name))])
    ∧ subjs ≡ₚ subjects s
    ∧ StronglySorted (λ a b, String.leb a.2 b.2 = true) subjs.
Proof.
  intros Hid Hnd Hin.
  pose proof (find_key_NoDup _ _ _ Hnd Hin) as Hfind.
  exists (order_by by_subject_name (subjects s)).
  split; [|split; [apply order_by_Permutation
                  |apply (order_by_StronglySorted by_subject_name)]].
  run_M. rewrite Hid. simpl. by rewrite Hfind.
Qed.

End Requests.

(** ** The further properties on the sample run *)

Lemma init_db_keeps_existing_witness :
  NoDup (subjects renamed_disk).*1
  ∧ NoDup (subjects (init_db renamed_disk).2).*1.
Proof.
  assert (NoDup (subjects renamed_disk).*1) as Hkey by by_computation.
  split; [exact Hkey|].
  destruct (init_db_keeps_existing renamed_disk) as (_ & _ & _ & Hkeys).
  exact (Hkeys Hkey).
Defined.

Lemma register_writes_image_witness :
  (register_student sample_png sample_b64 asha initial_state).1
  = Ok (JObj [("success", JBool true); ("qr_code", JStr "b64:PNG:BCA001")])
  ∧ qr_codes (register_student sample_png sample_b64 asha initial_state).2
    = <["qr_codes/BCA001.png" := "PNG:BCA001"]> (qr_codes initial_state).
Proof.
  apply (register_writes_image sample_png sample_b64 initial_state asha
           "BCA001" "Asha" "PNG:BCA001");
    [reflexivity | reflexivity | by_computation | reflexivity].
Defined.

Lemma register_image_failure_keeps_row_witness :
  (register_student failing_png sample_b64 asha initial_state).1
  = Ok (failure "Invalid version (was 41, expected 1 to 40)")
  ∧ students (register_student failing_png sample_b64 asha initial_state).2
    = [("BCA001", "Asha")].
Proof.
  destruct (register_image_failure_keeps_row failing_png sample_b64
              initial_state asha "BCA001" "Asha"
              "Invalid version (was 41, expected 1 to 40)")
    as (Hanswer & Hrow & _);
    [reflexivity | reflexivity | by_computation | reflexivity |].
  split; [exact Hanswer | exact Hrow].
Defined.

Lemma register_then_scan_witness :
  (scan_qr {["roll_no" := "BCA001"]} "2024-01-01 09:00:00"
           (register_student failing_png sample_b64 asha initial_state).2).1
  = Ok (JObj [("success", JBool true);
              ("student",
               JObj [("roll_no", JStr "BCA001");
                     ("name", JStr "Asha");
                     ("subject_id", JStr "BCA-501");
                     ("status", JStr "Present")])]).
Proof.
  apply (register_then_scan failing_png sample_b64 initial_state asha
           {["roll_no" := "BCA001"]} "BCA001" "Asha" "2024-01-01 09:00:00");
    [reflexivity | reflexivity | reflexivity | by_computation..].
Defined.

Lemma scan_appends_one_row_witness :
  attendance (scan_qr {["roll_no" := "BCA001"]} "2024-01-01 09:05:00"
                      sample_scanned).2
  = attendance sample_scanned ++
      [AttendanceRow 2 "BCA001" "BCA-501" "2024-01-01 09:05:00" "Present"]
  ∧ scan_qr {["roll_no" := "BCA001"]} "2024-01-01 09:05:00" full_ledger
    = (Ok (failure "database or disk is full"), full_ledger).
Proof.
  split.
  - destruct (scan_appends_one_row sample_scanned {["roll_no" := "BCA001"]}
                "BCA001" "Asha" "2024-01-01 09:05:00")
      as [Hfree _]; [reflexivity | by_computation | by_computation |].
    rewrite Hfree; [reflexivity | by_computation].
  - destruct (scan_appends_one_row full_ledger {["roll_no" := "BCA001"]}
                "BCA001" "Asha" "2024-01-01 09:05:00")
      as [_ Hfull]; [reflexivity | by_computation | by_computation |].
    apply Hfull. by_computation.
Defined.

Lemma log_ids_increasing_witness :
  reachable sample_png sample_b64 sample_rescanned
  ∧ log_id <$> attendance sample_rescanned = [1%N; 2%N]
  ∧ NoDup (log_id <$> attendance sample_rescanned)
  ∧ StronglySorted N.lt (log_id <$> attendance sample_rescanned)
  ∧ Forall (λ r, (log_id r ≤ sqlite_sequence sample_rescanned)%N)
           (attendance sample_rescanned).
Proof.
  assert (reachable sample_png sample_b64 sample_rescanned) as Hreach
    by apply reachable_call, sample_scanned_reachable.
  split; [exact Hreach|]. split; [reflexivity|].
  exact (log_ids_increasing sample_png sample_b64 sample_rescanned Hreach).
Defined.

Lemma log_id_never_reused_witness :
  let later :=
    serve sample_png sample_b64
          [ClearData; Register asha;
           Scan {["roll_no" := "BCA001"]} "2024-01-02 09:00:00"]
          sample_scanned in
  let row :=
    AttendanceRow 2 "BCA001" "BCA-501" "2024-01-02 09:00:00" "Present" in
  row ∈ attendance later
  ∧ (row ∈ attendance sample_scanned
     ∨ (sqlite_sequence sample_scanned < log_id row)%N).
Proof.
  intros later row.
  assert (row ∈ attendance later) as Hrow by (vm_compute; left).
  split; [exact Hrow|].
  exact (log_id_never_reused sample_png sample_b64 sample_scanned _ row Hrow).
Defined.

Lemma attendance_refers_to_rows_witness :
  let row :=
    AttendanceRow 1 "BCA001" "BCA-501" "2024-01-01 09:00:00" "Present" in
  reachable sample_png sample_b64 sample_scanned
  ∧ row ∈ attendance sample_scanned
  ∧ att_roll_no row ∈ (students sample_scanned).*1
  ∧ att_subject_id row ∈ (subjects sample_scanned).*1.
Proof.
  intros row.
  assert (row ∈ attendance sample_scanned) as Hrow by (vm_compute; left).
  split; [apply sample_scanned_reachable|]. split; [exact Hrow|].
  exact (attendance_refers_to_rows sample_png sample_b64 sample_scanned row
           sample_scanned_reachable Hrow).
Defined.

Lemma only_missing_fields_escape_witness :
  (handle sample_png sample_b64 (Register {["roll_no" := "BCA002"]})
          sample_scanned).1 = Raise (KeyError "name")
  ∧ (handle sample_png sample_b64 (Register {["roll_no" := "BCA002"]})
            sample_scanned).2 = sample_scanned.
Proof.
  assert ((handle sample_png sample_b64 (Register {["roll_no" := "BCA002"]})
                  sample_scanned).1 = Raise (KeyError "name")) as Hraise
    by reflexivity.
  split; [exact Hraise|].
  exact (proj1 (only_missing_fields_escape sample_png sample_b64 _ _ _ Hraise)).
Defined.

Lemma set_subject_without_subject_id_witness :
  set_subject {["subject" := "BCA-503"]} sample_scanned
  = (Ok (failure "'subject_id'"), sample_scanned).
Proof.
  apply (set_subject_without_subject_id sample_scanned
           {["subject" := "BCA-503"]}).
  reflexivity.
Defined.

Lemma set_subject_then_scan_witness :
  attendance
    (scan_qr {["roll_no" := "BCA001"]} "2024-01-01 09:05:00"
             (set_subject {["subject_id" := "BCA-503"]} sample_scanned).2).2
  = attendance sample_scanned ++
      [AttendanceRow 2 "BCA001" "BCA-503" "2024-01-01 09:05:00" "Present"].
Proof.
  apply (set_subject_then_scan sample_scanned {["subject_id" := "BCA-503"]}
           {["roll_no" := "BCA001"]} "BCA-503" "CN" "BCA001"
           "2024-01-01 09:05:00");
    [reflexivity | reflexivity | by_computation..].
Defined.


Lemma qr_images_kept_witness :
  is_Some (qr_codes sample_scanned !! "qr_codes/BCA001.png")
  ∧ is_Some (qr_codes (handle sample_png sample_b64 ClearData sample_scanned).2
               !! "qr_codes/BCA001.png").
Proof.
  assert (is_Some (qr_codes sample_scanned !! "qr_codes/BCA001.png")) as Hfile
    by by_computation.
  split; [exact Hfile|].
  exact (qr_images_kept sample_png sample_b64 ClearData sample_scanned _ Hfile).
Defined.

Lemma students_kept_until_cleared_witness :
  students sample_scanned
  `prefix_of`
  students (handle sample_png sample_b64
              (Register {["roll_no" := "BCA002"; "name" := "Ravi"]})
              sample_scanned).2.
Proof.
  apply (students_kept_until_cleared sample_png sample_b64). discriminate.
Defined.

Lemma primary_keys_hold_witness :
  reachable sample_png sample_b64 sample_scanned
  ∧ NoDup (students sample_scanned).*1 ∧ NoDup (subjects sample_scanned).*1.
Proof.
  split; [apply sample_scanned_reachable|].
  apply (primary_keys_hold sample_png sample_b64 sample_scanned).
  apply sample_scanned_reachable.
Defined.

Lemma set_subject_then_get_subjects_witness :
  ∃ subjs,
    (get_subjects
       (set_subject {["subject_id" := "BCA-503"]} sample_scanned).2).1
    = Ok (JObj [("success", JBool true);
                ("subjects", JArr (subject_json <$> subjs));
                ("current", subject_json ("BCA-503", "CN"))])
    ∧ subjs ≡ₚ subjects sample_scanned
    ∧ StronglySorted (λ a b, String.leb a.2 b.2 = true) subjs.
Proof.
  apply (set_subject_then_get_subjects sample_scanned
           {["subject_id" := "BCA-503"]} "BCA-503" "CN");
    [reflexivity | by_computation..].
Defined.
